(** * llm-playground: the outbound LLM client and its request handler

    A shallow embedding of [app/services/llm_client.py], [app/api/routes.py],
    [app/schemas/prompt.py] and [app/core/config.py].

    Python objects decoded from JSON are a small inductive type; exceptions
    are an inductive type of the classes the code raises or catches;
    [await]-ed code lives in an error monad that also logs what it does to
    the outside world (connection pool acquired, request sent, pool
    released), so that "no network call" and "released exactly once" are
    statements about the log. *)

From Stdlib Require Import ZArith NArith List String Ascii Bool Lia.
From Stdlib Require Import DecimalString DecimalN DecimalPos.
Import ListNotations.
Local Open Scope string_scope.
Local Open Scope list_scope.

(** ** Python values *)

(** What [response.json()] yields and what the [json=] argument of [post]
    takes.  A [dict] is an association list; lookup returns the first
    binding of the key. *)
#[warnings="-register-all"]
Inductive value : Type :=
| VNone
| VBool (b : bool)
| VInt (z : Z)
| VFloat (lexeme : string)
| VStr (s : string)
| VList (items : list value)
| VDict (entries : list (string * value)).

(** A subscript [obj[k]]: the code uses string keys and the index [0]. *)
Inductive subscript : Type :=
| KStr (s : string)
| KInt (i : Z).

(** ** Exceptions *)

(** Instances of [Exception].  [RuntimeError] stands for the class and its
    subclasses, [RequestError] for [httpx.RequestError] and its subclasses
    (timeouts, connection and protocol errors), [JSONDecodeError] and
    [ValidationError] are subclasses of [ValueError], [HTTPException] is
    FastAPI's; [OtherException] is any instance of a class that none of the
    [except] clauses names. *)
Inductive exn : Type :=
| RuntimeError (msg : string)
| HTTPStatusError (status_code : N)
| RequestError (msg : string)
| KeyError (key : subscript)
| IndexError
| TypeError
| JSONDecodeError
| ValidationError
| HTTPException (code : N) (detail : string)
| OtherException (cls msg : string).

Inductive res (A : Type) : Type :=
| Ok (a : A)
| Raise (e : exn).
Arguments Ok {A} a.
Arguments Raise {A} e.

(** ** The outside world *)

(** One request as [httpx] puts it on the wire. *)
Record Request : Type := mkRequest {
  req_method : string;
  req_base_url : string;
  req_path : string;
  req_headers : list (string * string);
  req_timeout : Z;
  req_json : value
}.

(** A received response: the status line and the decoded body, [None] when
    the body is not JSON text. *)
Record Response : Type := mkResponse {
  status_code : N;
  body : option value
}.

(** What the network does with a request: it answers, or the call raises
    (a [RequestError] for transport failures, anything else for the
    unexpected). *)
Inductive post_outcome : Type :=
| Responds (r : Response)
| Fails (e : exn).

Inductive event : Type :=
| EvAcquire
| EvSend (rq : Request)
| EvRelease.

Definition trace : Type := list event.

(** ** The monad of awaited code *)

Definition io (A : Type) : Type := (res A * trace)%type.

Definition ret {A} (a : A) : io A := (Ok a, []).
Definition raise {A} (e : exn) : io A := (Raise e, []).
Definition emit (ev : event) : io unit := (Ok tt, [ev]).
Definition lift {A} (r : res A) : io A := (r, []).

Definition bind {A B} (m : io A) (k : A -> io B) : io B :=
  match m with
  | (Ok a, t) => let (r, t') := k a in (r, t ++ t')
  | (Raise e, t) => (Raise e, t)
  end.

(** [try: m except ...: h]: [h e = None] when no clause matches [e]. *)
Definition try_except {A} (m : io A) (h : exn -> option (io A)) : io A :=
  match m with
  | (Ok a, t) => (Ok a, t)
  | (Raise e, t) =>
      match h e with
      | Some k => let (r, t') := k in (r, t ++ t')
      | None => (Raise e, t)
      end
  end.

Declare Scope io_scope.
Delimit Scope io_scope with io.
Notation "x <- m ;; k" := (bind m (fun x => k))
  (at level 61, m at next level, right associativity) : io_scope.
Notation "m ;;; k" := (bind m (fun _ => k))
  (at level 61, right associativity) : io_scope.
Local Open Scope io_scope.

Definition result {A} (m : io A) : res A := fst m.
Definition log {A} (m : io A) : trace := snd m.

(** ** Subscripting, as Python does it *)

Fixpoint dict_get (k : string) (entries : list (string * value)) : option value :=
  match entries with
  | [] => None
  | (k', v) :: rest => if String.eqb k k' then Some v else dict_get k rest
  end.

(** [seq[i]] for a sequence of length [len]: negative indices count from
    the end; out of range is [None]. *)
Definition index_of (i : Z) (len : nat) : option nat :=
  let j := if (i <? 0)%Z then (i + Z.of_nat len)%Z else i in
  if ((0 <=? j)%Z && (j <? Z.of_nat len)%Z)%bool then Some (Z.to_nat j) else None.

Definition getitem (obj : value) (k : subscript) : res value :=
  match obj, k with
  | VDict entries, KStr s =>
      match dict_get s entries with
      | Some v => Ok v
      | None => Raise (KeyError k)
      end
  | VDict _, KInt _ => Raise (KeyError k)
  | VList items, KInt i =>
      match index_of i (List.length items) with
      | Some n =>
          match nth_error items n with
          | Some v => Ok v
          | None => Raise IndexError
          end
      | None => Raise IndexError
      end
  | VStr s, KInt i =>
      match index_of i (String.length s) with
      | Some n =>
          match String.get n s with
          | Some c => Ok (VStr (String c EmptyString))
          | None => Raise IndexError
          end
      | None => Raise IndexError
      end
  | _, _ => Raise TypeError
  end.

(** ** httpx *)

(** [httpx.AsyncClient]: the configuration it was built with and whether
    [aclose] has run. *)
Record AsyncClient : Type := mkAsyncClient {
  ac_base_url : string;
  ac_headers : list (string * string);
  ac_timeout : Z;
  is_closed : bool
}.

Definition AsyncClient_new (base_url : string) (headers : list (string * string))
    (timeout : Z) : io AsyncClient :=
  emit EvAcquire ;;;
  ret (mkAsyncClient base_url headers timeout false).

(** [AsyncClient.aclose]: releases the pool unless that was done already. *)
Definition aclose (c : AsyncClient) : io AsyncClient :=
  if is_closed c then ret c
  else emit EvRelease ;;;
       ret (mkAsyncClient (ac_base_url c) (ac_headers c) (ac_timeout c) true).

(** [Response.raise_for_status]: passes exactly the 2xx statuses. *)
Definition is_success (r : Response) : bool :=
  ((200 <=? status_code r)%N && (status_code r <=? 299)%N)%bool.

Definition raise_for_status (r : Response) : res unit :=
  if is_success r then Ok tt else Raise (HTTPStatusError (status_code r)).

(** [Response.json] *)
Definition Response_json (r : Response) : res value :=
  match body r with
  | Some v => Ok v
  | None => Raise JSONDecodeError
  end.

(** [f"{n}"] for a status code. *)
Definition str_of_int (n : N) : string := NilZero.string_of_uint (N.to_uint n).

(** ** app/core/config.py: the loaded settings *)

Record Settings : Type := mkSettings {
  llm_api_key : string;
  llm_base_url : string;
  llm_model : string;
  api_timeout : Z;
  llm_provider : string
}.

Section Client.

(** The upstream provider and everything between it and [httpx]. *)
Variable upstream : Request -> post_outcome.

(** [from app.core.config import settings]: the module-level object. *)
Variable settings : Settings.

(** [AsyncClient.post(path, json=payload)]: a closed client refuses to
    send; otherwise one request goes out. *)
Definition post (c : AsyncClient) (path : string) (payload : value) : io Response :=
  if is_closed c then
    raise (RuntimeError "Cannot send a request, as the client has been closed.")
  else
    let rq := mkRequest "POST" (ac_base_url c) path (ac_headers c) (ac_timeout c) payload in
    emit (EvSend rq) ;;;
    match upstream rq with
    | Responds r => ret r
    | Fails e => raise e
    end.

(** ** app/services/llm_client.py *)

Record LLMClient : Type := mkLLMClient {
  base_url : string;
  api_key : string;
  model_name : string;
  timeout : Z;
  _client : option AsyncClient
}.

Definition set_client (self : LLMClient) (c : option AsyncClient) : LLMClient :=
  mkLLMClient (base_url self) (api_key self) (model_name self) (timeout self) c.

Definition __init__ : LLMClient :=
  mkLLMClient (llm_base_url settings) (llm_api_key settings) (llm_model settings)
    (api_timeout settings) None.

Definition __aenter__ (self : LLMClient) : io LLMClient :=
  c <- AsyncClient_new (base_url self)
         [("Authorization", ("Bearer " ++ api_key self)%string);
          ("Content-Type", "application/json")]
         (timeout self) ;;
  ret (set_client self (Some c)).

Definition __aexit__ (self : LLMClient) : io LLMClient :=
  match _client self with
  | Some c => c' <- aclose c ;; ret (set_client self (Some c'))
  | None => ret self
  end.

Definition precondition_msg : string :=
  "LLMClient must be used as an async context manager".

Definition chat_payload (self : LLMClient) (prompt : string) : value :=
  VDict [("model", VStr (model_name self));
         ("messages", VList [VDict [("role", VStr "user");
                                    ("content", VStr prompt)]])].

Definition generate_handlers (e : exn) : option (io value) :=
  match e with
  | HTTPStatusError code =>
      Some (raise (RuntimeError ("LLM API error: " ++ str_of_int code)%string))
  | RequestError msg =>
      Some (raise (RuntimeError ("Request failed: " ++ msg)%string))
  | KeyError _ | IndexError =>
      Some (raise (RuntimeError "Invalid response format from LLM API"))
  | _ => None
  end.

Definition generate (self : LLMClient) (prompt : string) : io value :=
  match _client self with
  | None => raise (RuntimeError precondition_msg)
  | Some c =>
      let payload := chat_payload self prompt in
      try_except
        (response <- post c "/v1/chat/completions" payload ;;
         lift (raise_for_status response) ;;;
         data <- lift (Response_json response) ;;
         choices <- lift (getitem data (KStr "choices")) ;;
         choice <- lift (getitem choices (KInt 0)) ;;
         message <- lift (getitem choice (KStr "message")) ;;
         lift (getitem message (KStr "content")))
        generate_handlers
  end.

Definition get_llm_client : io LLMClient := ret __init__.

(** ** app/schemas/prompt.py *)

Record PromptRequest : Type := mkPromptRequest { prompt : string }.
Record PromptResponse : Type := mkPromptResponse { response : string }.

(** [PromptRequest.model_validate(body)]: a [str] under ["prompt"] with
    [min_length=1]; other keys of the body are ignored. *)
Definition PromptRequest_validate (body : value) : res PromptRequest :=
  match body with
  | VDict entries =>
      match dict_get "prompt" entries with
      | Some (VStr s) =>
          if (1 <=? String.length s)%nat then Ok (mkPromptRequest s)
          else Raise ValidationError
      | _ => Raise ValidationError
      end
  | _ => Raise ValidationError
  end.

(** [PromptResponse(response=v)]: the field is declared [str]. *)
Definition PromptResponse_new (v : value) : res PromptResponse :=
  match v with
  | VStr s => Ok (mkPromptResponse s)
  | _ => Raise ValidationError
  end.

(** ** app/api/routes.py *)

(** [async with client: body].  [__aexit__] returns [None], so an exception
    of the body is re-raised once the exit has run. *)
Definition async_with {A} (client : LLMClient) (body : LLMClient -> io A) : io A :=
  self <- __aenter__ client ;;
  let (r, t) := body self in
  match __aexit__ self with
  | (Ok _, t') => (r, t ++ t')
  | (Raise e, t') => (Raise e, t ++ t')
  end.

Definition generate_response_handlers (e : exn) : option (io PromptResponse) :=
  match e with
  | RuntimeError msg => Some (raise (HTTPException 502 msg))
  | _ => Some (raise (HTTPException 500 "Internal server error"))
  end.

Definition generate_response (request : PromptRequest) : io PromptResponse :=
  client <- get_llm_client ;;
  try_except
    (async_with client (fun client =>
       response <- generate client (prompt request) ;;
       lift (PromptResponse_new response)))
    generate_response_handlers.

(** What FastAPI sends back for [POST /generate]. *)
Inductive reply : Type :=
| Reply (status : N) (content : value)
| Unprocessable.

(** The route as FastAPI runs it: the body is validated against
    [PromptRequest] first (422 on failure, the function is not called),
    the returned model is serialised with status 200, and an
    [HTTPException] becomes its status code and detail. *)
Definition post_generate (body : value) : io reply :=
  match PromptRequest_validate body with
  | Raise _ => ret Unprocessable
  | Ok request =>
      try_except
        (r <- generate_response request ;;
         ret (Reply 200 (VDict [("response", VStr (response r))])))
        (fun e =>
           match e with
           | HTTPException code detail =>
               Some (ret (Reply code (VDict [("detail", VStr detail)])))
           | _ => None
           end)
  end.

End Client.

(** ** app/core/config.py: loading *)

Inductive extra_policy : Type := ExtraIgnore | ExtraForbid | ExtraAllow.

Record SettingsConfigDict : Type := mkSettingsConfigDict {
  env_file : option string;
  env_file_encoding : string;
  case_sensitive : bool;
  extra : extra_policy
}.

Definition model_config : SettingsConfigDict :=
  mkSettingsConfigDict (Some ".env") "utf-8" false ExtraIgnore.

(** Where values come from: the process environment in the order
    [os.environ] lists it, and the bindings of the file [env_file] names
    ([[]] when there is no such file). *)
Record environment : Type := mkEnvironment {
  os_environ : list (string * string);
  dotenv : list (string * string)
}.

(** [str.lower] on ASCII names. *)
Definition lower_ascii (c : ascii) : ascii :=
  let n := nat_of_ascii c in
  if ((65 <=? n)%nat && (n <=? 90)%nat)%bool then ascii_of_nat (n + 32) else c.

Fixpoint lower (s : string) : string :=
  match s with
  | EmptyString => EmptyString
  | String c rest => String (lower_ascii c) (lower rest)
  end.

Definition env_name (cfg : SettingsConfigDict) (k : string) : string :=
  if case_sensitive cfg then k else lower k.

(** [{name(k): v for k, v in vars.items()}]: a later binding of the same
    name replaces an earlier one. *)
Fixpoint env_get (cfg : SettingsConfigDict) (name : string)
    (vars : list (string * string)) : option string :=
  match vars with
  | [] => None
  | (k, v) :: rest =>
      match env_get cfg name rest with
      | Some v' => Some v'
      | None => if String.eqb (env_name cfg k) name then Some v else None
      end
  end.

(** The raw value of a field: the process environment has priority over
    the file. *)
Definition field_value (cfg : SettingsConfigDict) (env : environment)
    (field : string) : option string :=
  match env_get cfg (env_name cfg field) (os_environ env) with
  | Some v => Some v
  | None =>
      match env_file cfg with
      | Some _ => env_get cfg (env_name cfg field) (dotenv env)
      | None => None
      end
  end.

Definition Settings_fields : list string :=
  ["llm_api_key"; "llm_base_url"; "llm_model"; "api_timeout"; "llm_provider"].

Definition is_field (cfg : SettingsConfigDict) (k : string) : bool :=
  existsb (fun f => String.eqb (env_name cfg k) (env_name cfg f)) Settings_fields.

(** Names of the file that are no field count only under [extra="forbid"]. *)
Definition extra_ok (cfg : SettingsConfigDict) (env : environment) : bool :=
  match extra cfg with
  | ExtraForbid => forallb (fun kv => is_field cfg (fst kv)) (dotenv env)
  | _ => true
  end.

Section Loading.

(** The [int] validator of pydantic on an environment string. *)
Variable int_of_str : string -> option Z.

(** [Settings()]: three required [str] fields, [api_timeout: int = 60],
    [llm_provider: str = "generic"].  Line 31 runs it when the module is
    imported, so an exception here stops the process from starting. *)
Definition Settings_init (env : environment) : res Settings :=
  let get := field_value model_config env in
  if negb (extra_ok model_config env) then Raise ValidationError else
  match get "llm_api_key", get "llm_base_url", get "llm_model" with
  | Some key, Some url, Some model =>
      let provider :=
        match get "llm_provider" with Some p => p | None => "generic" end in
      match get "api_timeout" with
      | None => Ok (mkSettings key url model 60 provider)
      | Some t =>
          match int_of_str t with
          | Some z => Ok (mkSettings key url model z provider)
          | None => Raise ValidationError
          end
      end
  | _, _, _ => Raise ValidationError
  end.

End Loading.

(** ** Vocabulary of the properties *)

(** The request a call of [generate] hands to the network when the
    connection handle of [self] is [c]. *)
Definition chat_request (self : LLMClient) (c : AsyncClient) (prompt : string) : Request :=
  mkRequest "POST" (ac_base_url c) "/v1/chat/completions" (ac_headers c)
    (ac_timeout c) (chat_payload self prompt).

(** The outbound request of one handled [POST /generate]. *)
Definition handler_request (settings : Settings) (prompt : string) : Request :=
  mkRequest "POST" (llm_base_url settings) "/v1/chat/completions"
    [("Authorization", ("Bearer " ++ llm_api_key settings)%string);
     ("Content-Type", "application/json")]
    (api_timeout settings)
    (VDict [("model", VStr (llm_model settings));
            ("messages", VList [VDict [("role", VStr "user");
                                       ("content", VStr prompt)]])]).

(** The client inside the [async with] block of the route: built from the
    settings and entered. *)
Definition scoped_client (settings : Settings) : LLMClient :=
  set_client (__init__ settings)
    (Some (mkAsyncClient (llm_base_url settings)
             [("Authorization", ("Bearer " ++ llm_api_key settings)%string);
              ("Content-Type", "application/json")]
             (api_timeout settings) false)).

(** A 2xx body that lacks a key on the way to [choices[0].message.content]
    or whose [choices] list is empty. *)
Inductive lacks_content : value -> Prop :=
| lacks_choices entries :
    dict_get "choices" entries = None ->
    lacks_content (VDict entries)
| empty_choices entries :
    dict_get "choices" entries = Some (VList []) ->
    lacks_content (VDict entries)
| lacks_message entries first others :
    dict_get "choices" entries = Some (VList (VDict first :: others)) ->
    dict_get "message" first = None ->
    lacks_content (VDict entries)
| lacks_content_key entries first others message :
    dict_get "choices" entries = Some (VList (VDict first :: others)) ->
    dict_get "message" first = Some (VDict message) ->
    dict_get "content" message = None ->
    lacks_content (VDict entries).

(** The body shape [{"choices": [{"message": {"content": v}}, ...]}]. *)
Definition choices0_message_content (data : value) : option value :=
  match data with
  | VDict entries =>
      match dict_get "choices" entries with
      | Some (VList (VDict first :: _)) =>
          match dict_get "message" first with
          | Some (VDict message) => dict_get "content" message
          | _ => None
          end
      | _ => None
      end
  | _ => None
  end.

(** The unified upstream-error kind: what the three [except] clauses of
    [generate] raise. *)
Inductive upstream_error : exn -> Prop :=
| upstream_status (code : N) :
    upstream_error (RuntimeError ("LLM API error: " ++ str_of_int code)%string)
| upstream_transport (msg : string) :
    upstream_error (RuntimeError ("Request failed: " ++ msg)%string)
| upstream_malformed :
    upstream_error (RuntimeError "Invalid response format from LLM API").

(** What the [except] clauses of the route make of an exception raised in
    the [try] block. *)
Definition surfaced (e : exn) : res PromptResponse :=
  result (try_except (raise e) generate_response_handlers).

Definition is_release (ev : event) : bool :=
  match ev with EvRelease => true | _ => false end.

Definition is_send (ev : event) : bool :=
  match ev with EvSend _ => true | _ => false end.

Definition is_acquire (ev : event) : bool :=
  match ev with EvAcquire => true | _ => false end.

Definition count (p : event -> bool) (t : trace) : nat :=
  List.length (filter p t).

(** [name] is bound, in any letter case, in the process environment or in
    the file. *)
Definition present (name : string) (env : environment) : bool :=
  existsb (fun kv => String.eqb (lower (fst kv)) name)
    (os_environ env ++ dotenv env).

(** Two binding lists that differ in the letter case of names only. *)
Definition same_names_nocase (vars1 vars2 : list (string * string)) : Prop :=
  Forall2 (fun b1 b2 => lower (fst b1) = lower (fst b2) /\ snd b1 = snd b2)
    vars1 vars2.

(** ** Sample inputs *)

Definition sample_settings : Settings :=
  mkSettings "sk-test" "https://api.example.com/openai" "sample-model" 60 "generic".

Definition sample_body (text : string) : value :=
  VDict [("id", VStr "cmpl-1");
         ("choices",
          VList [VDict [("index", VInt 0);
                        ("message", VDict [("role", VStr "assistant");
                                           ("content", VStr text)])]])].

(** An upstream that answers every request with the same status and body. *)
Definition answers (status : N) (data : option value) : Request -> post_outcome :=
  fun _ => Responds (mkResponse status data).

Definition sample_environment : environment :=
  mkEnvironment
    [("PATH", "/usr/bin"); ("LLM_API_KEY", "sk-test"); ("Llm_Base_Url", "https://api.example.com")]
    [("llm_model", "sample-model"); ("EDITOR", "vi")].

(** Decimal digits only; enough for the samples. *)
Definition sample_int_of_str (s : string) : option Z :=
  match NilZero.uint_of_string s with
  | Some d => Some (Z.of_N (N.of_uint d))
  | None => None
  end.

(** ** Equations of the monad *)

Lemma result_bind {A B} (m : io A) (k : A -> io B) :
  result (bind m k) =
  match result m with Ok a => result (k a) | Raise e => Raise e end.
Proof.
  destruct m as [[a | e] t]; cbn [bind result fst]; [ | reflexivity ].
  now destruct (k a).
Qed.

Lemma log_bind {A B} (m : io A) (k : A -> io B) :
  log (bind m k) =
  match result m with Ok a => log m ++ log (k a) | Raise _ => log m end.
Proof.
  destruct m as [[a | e] t]; cbn [bind result log fst snd]; [ | reflexivity ].
  now destruct (k a).
Qed.

Lemma result_try_except {A} (m : io A) (h : exn -> option (io A)) :
  result (try_except m h) =
  match result m with
  | Ok a => Ok a
  | Raise e => match h e with Some k => result k | None => Raise e end
  end.
Proof.
  destruct m as [[a | e] t]; cbn [try_except result fst]; [ reflexivity | ].
  destruct (h e) as [[r t'] | ]; reflexivity.
Qed.

Lemma log_try_except {A} (m : io A) (h : exn -> option (io A)) :
  log (try_except m h) =
  match result m with
  | Ok _ => log m
  | Raise e => match h e with Some k => log m ++ log k | None => log m end
  end.
Proof.
  destruct m as [[a | e] t]; cbn [try_except result log fst snd]; [ reflexivity | ].
  destruct (h e) as [[r t'] | ]; reflexivity.
Qed.

Lemma io_eta {A} (m : io A) : m = (result m, log m).
Proof. now destruct m. Qed.

Create Rewrite HintDb io.
#[local] Hint Rewrite @result_bind @log_bind @result_try_except @log_try_except : io.

Ltac io_step :=
  repeat (progress (autorewrite with io;
                    cbn [result log fst snd lift ret raise emit app])).

(** ** The status code in a message *)

Lemma str_of_int_inj (n n' : N) : str_of_int n = str_of_int n' -> n = n'.
Proof.
  unfold str_of_int. intros H.
  assert (Hnil : forall m : N, N.to_uint m <> Decimal.Nil).
  { intros [ | p]; [ discriminate | apply DecimalPos.Unsigned.to_uint_nonnil ]. }
  apply DecimalN.Unsigned.to_uint_inj.
  pose proof (NilZero.usu (N.to_uint n) (Hnil n)) as Hn.
  pose proof (NilZero.usu (N.to_uint n') (Hnil n')) as Hn'.
  rewrite H in Hn. congruence.
Qed.

Lemma status_message_inj (n n' : N) :
  ("LLM API error: " ++ str_of_int n)%string =
  ("LLM API error: " ++ str_of_int n')%string -> n = n'.
Proof.
  cbn [String.append]. intros H. apply str_of_int_inj. now injection H.
Qed.

(** ** Properties of the client *)

Section ClientProperties.

Variable upstream : Request -> post_outcome.

(** An open handle sends the request and hands back what the network
    does with it. *)
Lemma post_open (c : AsyncClient) (path : string) (payload : value) :
  is_closed c = false ->
  post upstream c path payload =
  let rq := mkRequest "POST" (ac_base_url c) path (ac_headers c) (ac_timeout c) payload in
  (match upstream rq with Responds r => Ok r | Fails e => Raise e end, [EvSend rq]).
Proof.
  intros Hopen. unfold post. rewrite Hopen. cbn zeta.
  destruct (upstream _); reflexivity.
Qed.

(** Reading [choices[0].message.content] off a body of the expected shape
    is what the four subscripts of [generate] do. *)
Lemma getitem_chain (data v : value) :
  choices0_message_content data = Some v ->
  exists choices choice message,
    getitem data (KStr "choices") = Ok choices /\
    getitem choices (KInt 0) = Ok choice /\
    getitem choice (KStr "message") = Ok message /\
    getitem message (KStr "content") = Ok v.
Proof.
  unfold choices0_message_content.
  destruct data as [ | | | | | | entries]; try discriminate.
  destruct (dict_get "choices" entries) as [choices|] eqn:Hchoices; try discriminate.
  destruct choices as [ | | | | | items | ]; try discriminate.
  destruct items as [|choice others]; try discriminate.
  destruct choice as [ | | | | | | first]; try discriminate.
  destruct (dict_get "message" first) as [message|] eqn:Hmessage; try discriminate.
  destruct message as [ | | | | | | fields]; try discriminate.
  intros Hcontent.
  exists (VList (VDict first :: others)), (VDict first), (VDict fields).
  cbn [getitem]. rewrite Hchoices, Hmessage, Hcontent.
  repeat split; reflexivity.
Qed.

(** C1.  For every non-empty prompt, when the client is open and the
    upstream answers with a 2xx status and a body whose
    [choices[0].message.content] is the text [R], [generate] returns
    exactly [R]; [R] may be the empty string. *)
Theorem generate_returns_content_verbatim
    (self : LLMClient) (c : AsyncClient) (P R : string)
    (response : Response) (data : value) :
  P <> ""%string ->
  _client self = Some c -> is_closed c = false ->
  upstream (chat_request self c P) = Responds response ->
  is_success response = true ->
  body response = Some data ->
  choices0_message_content data = Some (VStr R) ->
  result (generate upstream self P) = Ok (VStr R).
Proof.
  intros _ Hc Hopen Hup H2xx Hbody Hshape.
  destruct (getitem_chain data (VStr R) Hshape)
    as (choices & choice & message & H1 & H2 & H3 & H4).
  unfold generate. rewrite Hc, (post_open c _ _ Hopen). cbn zeta.
  fold (chat_request self c P). rewrite Hup.
  io_step. unfold raise_for_status, Response_json. rewrite H2xx, Hbody.
  io_step. rewrite H1. io_step. rewrite H2. io_step. rewrite H3. io_step.
  now rewrite H4.
Qed.

(** C2, client part: a status outside 2xx becomes the unified error with
    the status code in its message. *)
Lemma generate_status_error
    (self : LLMClient) (c : AsyncClient) (P : string) (response : Response) :
  _client self = Some c -> is_closed c = false ->
  upstream (chat_request self c P) = Responds response ->
  is_success response = false ->
  result (generate upstream self P) =
  Raise (RuntimeError ("LLM API error: " ++ str_of_int (status_code response))%string).
Proof.
  intros Hc Hopen Hup Hstatus.
  unfold generate. rewrite Hc, (post_open c _ _ Hopen). cbn zeta.
  fold (chat_request self c P). rewrite Hup.
  io_step. unfold raise_for_status. rewrite Hstatus. now io_step.
Qed.

(** A transport failure becomes the unified error with the transport's
    message. *)
Lemma generate_transport_error
    (self : LLMClient) (c : AsyncClient) (P msg : string) :
  _client self = Some c -> is_closed c = false ->
  upstream (chat_request self c P) = Fails (RequestError msg) ->
  result (generate upstream self P) =
  Raise (RuntimeError ("Request failed: " ++ msg)%string).
Proof.
  intros Hc Hopen Hup.
  unfold generate. rewrite Hc, (post_open c _ _ Hopen). cbn zeta.
  fold (chat_request self c P). rewrite Hup. now io_step.
Qed.

(** C5.  On a client whose [open] never completed, [generate] fails with
    the precondition error and nothing reaches the network: the log of
    the call is empty. *)
Theorem generate_unopened_fails_fast (self : LLMClient) (P : string) :
  _client self = None ->
  generate upstream self P = (Raise (RuntimeError precondition_msg), []).
Proof.
  intros Hc. unfold generate. now rewrite Hc.
Qed.

(** An open client sends one request per call, whatever comes back. *)
Lemma generate_open_log (self : LLMClient) (c : AsyncClient) (P : string) :
  _client self = Some c -> is_closed c = false ->
  log (generate upstream self P) = [EvSend (chat_request self c P)].
Proof.
  intros Hc Hopen.
  unfold generate. rewrite Hc, (post_open c _ _ Hopen). cbn zeta.
  fold (chat_request self c P).
  destruct (upstream (chat_request self c P)) as [response | e].
  - io_step. unfold raise_for_status, Response_json.
    destruct (is_success response); io_step; [ | reflexivity ].
    destruct (body response) as [data | ]; io_step; [ | reflexivity ].
    repeat match goal with
           | |- context [getitem ?o ?k] =>
               destruct (getitem o k) as [? | []]; io_step; try reflexivity
           end.
  - io_step. destruct e; reflexivity.
Qed.

(** C6.  For every prompt [P], a call of [generate] on an opened client
    sends exactly one request: a POST to [/v1/chat/completions] whose body
    is [{"model": model_name, "messages": [{"role": "user", "content":
    P}]}]; this is the whole log of the call whatever the upstream does,
    so nothing is retried. *)
Theorem generate_single_post (self : LLMClient) (c : AsyncClient) (P : string) :
  _client self = Some c -> is_closed c = false ->
  log (generate upstream self P) =
    [EvSend (mkRequest "POST" (ac_base_url c) "/v1/chat/completions"
               (ac_headers c) (ac_timeout c)
               (VDict [("model", VStr (model_name self));
                       ("messages",
                        VList [VDict [("role", VStr "user");
                                      ("content", VStr P)]])]))]
  /\ count is_send (log (generate upstream self P)) = 1.
Proof.
  intros Hc Hopen. rewrite (generate_open_log self c P Hc Hopen).
  split; reflexivity.
Qed.

(** A 2xx body with a missing key or an empty [choices] list is reported
    as the malformed-response variant of the unified error. *)
Lemma generate_lacks_content
    (self : LLMClient) (c : AsyncClient) (P : string)
    (response : Response) (data : value) :
  _client self = Some c -> is_closed c = false ->
  upstream (chat_request self c P) = Responds response ->
  is_success response = true ->
  body response = Some data ->
  lacks_content data ->
  result (generate upstream self P) =
  Raise (RuntimeError "Invalid response format from LLM API").
Proof.
  intros Hc Hopen Hup H2xx Hbody Hshape.
  unfold generate. rewrite Hc, (post_open c _ _ Hopen). cbn zeta.
  fold (chat_request self c P). rewrite Hup.
  io_step. unfold raise_for_status, Response_json. rewrite H2xx, Hbody.
  io_step.
  destruct Hshape as [entries H1 | entries H1 | entries first others H1 H2
                     | entries first others message H1 H2 H3];
    cbn [getitem]; rewrite H1; io_step; cbn [getitem]; try reflexivity.
  - cbn. rewrite H2. now io_step.
  - cbn. rewrite H2. io_step. cbn [getitem]. rewrite H3. now io_step.
Qed.

End ClientProperties.

(** ** Properties of the connection scope and of the route *)

Section HandlerProperties.

Variable upstream : Request -> post_outcome.
Variable settings : Settings.

Lemma aenter_init :
  __aenter__ (__init__ settings) = (Ok (scoped_client settings), [EvAcquire]).
Proof. reflexivity. Qed.

Lemma aexit_total (self : LLMClient) :
  exists self' t, __aexit__ self = (Ok self', t).
Proof.
  unfold __aexit__, aclose.
  destruct (_client self) as [c | ]; [ | now eexists; eexists ].
  destruct (is_closed c); now eexists; eexists.
Qed.

Lemma aexit_unopened (self : LLMClient) :
  _client self = None -> __aexit__ self = (Ok self, []).
Proof. intros Hc. unfold __aexit__. now rewrite Hc. Qed.

(** After [__aexit__] the handle is still there, closed. *)
Lemma aexit_keeps_handle (self self' : LLMClient) (c : AsyncClient) (t : trace) :
  _client self = Some c ->
  __aexit__ self = (Ok self', t) ->
  exists c', _client self' = Some c' /\ is_closed c' = true.
Proof.
  intros Hc. unfold __aexit__, aclose. rewrite Hc.
  destruct (is_closed c) eqn:Hclosed; cbn; intros H; injection H as <- _.
  - exists c. now split.
  - eexists. split; reflexivity.
Qed.

Lemma aexit_idempotent (self self' : LLMClient) (t : trace) :
  __aexit__ self = (Ok self', t) -> __aexit__ self' = (Ok self', []).
Proof.
  intros H. destruct (_client self) as [c | ] eqn:Hc.
  - destruct (aexit_keeps_handle self self' c t Hc H) as (c' & Hc' & Hclosed).
    unfold __aexit__, aclose. rewrite Hc', Hclosed. cbn.
    destruct self'; cbn in *. now rewrite Hc'.
  - rewrite (aexit_unopened self Hc) in H. injection H as <- _.
    now apply aexit_unopened.
Qed.

(** The route, in terms of the one [generate] call it makes: the result is
    that of [generate] passed through the model constructor and the
    [except] clauses, and the log is acquire, the call, release. *)
Lemma generate_response_eq (request : PromptRequest) :
  generate_response upstream settings request =
  (match result (generate upstream (scoped_client settings) (prompt request)) with
   | Ok v =>
       match PromptResponse_new v with
       | Ok r => Ok r
       | Raise e => surfaced e
       end
   | Raise e => surfaced e
   end,
   EvAcquire
     :: log (generate upstream (scoped_client settings) (prompt request))
     ++ [EvRelease]).
Proof.
  unfold generate_response, get_llm_client, async_with.
  rewrite (io_eta (bind (ret _) _)). io_step. rewrite aenter_init. io_step.
  set (g := generate upstream (scoped_client settings) (prompt request)).
  rewrite (io_eta (bind g _)). io_step.
  destruct (result g) as [v | e].
  - destruct (PromptResponse_new v) as [r | e]; cbn; io_step.
    + now rewrite app_nil_r.
    + unfold surfaced. io_step. rewrite !app_nil_r.
      destruct e; cbn; now rewrite ?app_nil_r.
  - cbn. io_step. unfold surfaced. io_step.
    destruct e; cbn; now rewrite ?app_nil_r.
Qed.

Lemma generate_response_log (request : PromptRequest) :
  log (generate_response upstream settings request) =
  [EvAcquire; EvSend (handler_request settings (prompt request)); EvRelease].
Proof.
  rewrite generate_response_eq. cbn [log snd].
  now rewrite (generate_open_log upstream (scoped_client settings) _ _ eq_refl eq_refl).
Qed.

(** C2.  Whenever the upstream answers an opened client with a status
    outside 2xx, [generate] fails with the unified upstream error whose
    message ends in the decimal status code (and determines it), the
    [except] clauses of the
    route turn that error into a 502, and so does the route for the
    client it opened itself. *)
Theorem non_2xx_status_surfaces_as_502
    (self : LLMClient) (c : AsyncClient) (P : string) (response : Response) :
  _client self = Some c -> is_closed c = false ->
  upstream (chat_request self c P) = Responds response ->
  is_success response = false ->
  let msg := ("LLM API error: " ++ str_of_int (status_code response))%string in
  result (generate upstream self P) = Raise (RuntimeError msg) /\
  upstream_error (RuntimeError msg) /\
  (forall code : N,
     msg = ("LLM API error: " ++ str_of_int code)%string ->
     code = status_code response) /\
  surfaced (RuntimeError msg) = Raise (HTTPException 502 msg) /\
  (self = scoped_client settings ->
   result (generate_response upstream settings (mkPromptRequest P)) =
   Raise (HTTPException 502 msg)).
Proof.
  intros Hc Hopen Hup Hstatus msg.
  pose proof (generate_status_error upstream self c P response Hc Hopen Hup Hstatus)
    as Hgen.
  split; [ exact Hgen | ]. split; [ constructor | ].
  split; [ intros code Hcode; symmetry; now apply status_message_inj | ].
  split; [ reflexivity | ].
  intros ->. rewrite generate_response_eq. cbn [result fst prompt].
  now rewrite Hgen.
Qed.

(** C3, at a body the clauses of [generate] miss.  The upstream answers 200
    with the body [{"choices": null}]: subscripting [None] raises
    [TypeError], which no [except] clause of [generate] catches, so the
    call does not fail with the unified error and the route answers 500. *)
Theorem null_choices_escapes_as_TypeError (request : PromptRequest) :
  let null_choices := fun _ : Request =>
    Responds (mkResponse 200 (Some (VDict [("choices", VNone)]))) in
  result (generate null_choices (scoped_client settings) (prompt request)) =
    Raise TypeError /\
  result (generate_response null_choices settings request) =
    Raise (HTTPException 500 "Internal server error").
Proof.
  cbn zeta. split; reflexivity.
Qed.

(** C4, as the code has it.  The [except] clauses of the route turn every
    [RuntimeError] into a 502 whose detail is the error's message, and
    every other exception into a 500 with the fixed detail; the route's
    result is the result of its one [generate] call passed through them.
    The unified upstream errors and the precondition error are all
    [RuntimeError]s, hence all 502. *)
Theorem handler_maps_RuntimeError_to_502 :
  (forall e : exn,
     surfaced e =
     match e with
     | RuntimeError msg => Raise (HTTPException 502 msg)
     | _ => Raise (HTTPException 500 "Internal server error")
     end) /\
  (forall e : exn, upstream_error e ->
     exists msg, e = RuntimeError msg /\ surfaced e = Raise (HTTPException 502 msg)) /\
  surfaced (RuntimeError precondition_msg) =
    Raise (HTTPException 502 precondition_msg) /\
  (forall request : PromptRequest,
     result (generate_response upstream settings request) =
     match result (generate upstream (scoped_client settings) (prompt request)) with
     | Ok (VStr text) => Ok (mkPromptResponse text)
     | Ok _ => Raise (HTTPException 500 "Internal server error")
     | Raise (RuntimeError msg) => Raise (HTTPException 502 msg)
     | Raise _ => Raise (HTTPException 500 "Internal server error")
     end).
Proof.
  assert (Hmap : forall e : exn,
            surfaced e =
            match e with
            | RuntimeError msg => Raise (HTTPException 502 msg)
            | _ => Raise (HTTPException 500 "Internal server error")
            end) by (intros []; reflexivity).
  split; [ exact Hmap | ]. split; [ | split; [ reflexivity | ] ].
  - intros e [code | msg | ]; eexists; split; reflexivity.
  - intros request. rewrite generate_response_eq. cbn [result fst].
    destruct (result (generate _ _ _)) as [[ | | | | text | | ] | e];
      try reflexivity.
    apply Hmap.
Qed.

(** C7.  Whatever the upstream does, and so on every exit path of the
    route, the log of a handled request is: the connection is acquired,
    one request is sent, the connection is released; it is released
    exactly once and last.  [__aexit__] always returns, running it again
    changes nothing and releases nothing, and on a client that was never
    entered it does nothing. *)
Theorem connection_released_exactly_once :
  (forall request : PromptRequest,
     log (generate_response upstream settings request) =
       [EvAcquire; EvSend (handler_request settings (prompt request)); EvRelease] /\
     count is_release (log (generate_response upstream settings request)) = 1) /\
  (forall self : LLMClient, exists self' t, __aexit__ self = (Ok self', t)) /\
  (forall (self self' : LLMClient) (t : trace),
     __aexit__ self = (Ok self', t) -> __aexit__ self' = (Ok self', [])) /\
  (forall self : LLMClient, _client self = None -> __aexit__ self = (Ok self, [])).
Proof.
  split; [ | split; [ | split ] ].
  - intros request. rewrite generate_response_log. split; reflexivity.
  - apply aexit_total.
  - apply aexit_idempotent.
  - apply aexit_unopened.
Qed.

(** C9.  A body whose prompt is the empty string is answered 422 with an
    empty log: the route function is not called, no client is built and
    nothing is sent.  Every request that validation lets through has a
    prompt of length at least 1, and a run of the route that does
    anything at all is for such a request. *)
Theorem empty_prompt_rejected_before_client :
  (forall entries : list (string * value),
     dict_get "prompt" entries = Some (VStr "") ->
     post_generate upstream settings (VDict entries) = (Ok Unprocessable, [])) /\
  (forall (body : value) (request : PromptRequest),
     PromptRequest_validate body = Ok request ->
     1 <= String.length (prompt request)) /\
  (forall body : value,
     log (post_generate upstream settings body) <> [] ->
     exists request, PromptRequest_validate body = Ok request /\
                     1 <= String.length (prompt request)).
Proof.
  assert (Hlen : forall (body : value) (request : PromptRequest),
            PromptRequest_validate body = Ok request ->
            1 <= String.length (prompt request)).
  { intros body request. unfold PromptRequest_validate.
    destruct body as [ | | | | | | entries]; try discriminate.
    destruct (dict_get "prompt" entries) as [[ | | | | s | | ] | ]; try discriminate.
    destruct (1 <=? String.length s)%nat eqn:Hs; try discriminate.
    intros H. injection H as <-. now apply Nat.leb_le. }
  split; [ | split ].
  - intros entries Hprompt. unfold post_generate, PromptRequest_validate.
    now rewrite Hprompt.
  - exact Hlen.
  - intros body Hlog. unfold post_generate in Hlog.
    destruct (PromptRequest_validate body) as [request | e] eqn:Hvalid.
    + exists request. split; [ reflexivity | now apply (Hlen body) ].
    + now contradiction Hlog.
Qed.

(** C10.  A client that was entered and then exited still holds its
    (closed) connection handle, so the guard of [generate] lets the call
    through: it does not fail with the precondition error but with the
    refusal of the closed handle to send. *)
Theorem generate_after_close_passes_guard
    (fresh opened closed : LLMClient) (t1 t2 : trace) (P : string) :
  __aenter__ fresh = (Ok opened, t1) ->
  __aexit__ opened = (Ok closed, t2) ->
  (exists c, _client closed = Some c /\ is_closed c = true) /\
  result (generate upstream closed P) <> Raise (RuntimeError precondition_msg) /\
  result (generate upstream closed P) =
    Raise (RuntimeError "Cannot send a request, as the client has been closed.").
Proof.
  intros Henter Hexit.
  assert (Hopened : exists c, _client opened = Some c).
  { unfold __aenter__, AsyncClient_new in Henter. cbn in Henter.
    injection Henter as <- _. now eexists. }
  destruct Hopened as (c & Hc).
  destruct (aexit_keeps_handle opened closed c t2 Hc Hexit) as (c' & Hc' & Hclosed).
  assert (Hgen : result (generate upstream closed P) =
                 Raise (RuntimeError
                          "Cannot send a request, as the client has been closed.")).
  { unfold generate, post. rewrite Hc', Hclosed. now io_step. }
  split; [ now exists c' | ]. split; [ | exact Hgen ].
  rewrite Hgen. discriminate.
Qed.

End HandlerProperties.

(** ** Properties of the settings *)

Section LoadingProperties.

Variable int_of_str : string -> option Z.

Lemma env_get_None (name : string) (vars : list (string * string)) :
  env_get model_config name vars = None <->
  existsb (fun kv => String.eqb (lower (fst kv)) name) vars = false.
Proof.
  induction vars as [ | [k v] rest IH]; cbn [env_get existsb fst]; [ tauto | ].
  change (env_name model_config k) with (lower k).
  destruct (env_get model_config name rest) as [v' | ].
  - destruct IH as [_ IH]. split; [ discriminate | ].
    intros H. apply orb_false_elim in H as [_ H]. now apply IH in H.
  - destruct IH as [IH _]. rewrite (IH eq_refl), orb_false_r.
    destruct (String.eqb (lower k) name); split; congruence.
Qed.

Lemma field_value_None (env : environment) (field : string) :
  field_value model_config env field = None <-> present (lower field) env = false.
Proof.
  unfold field_value, present. cbn [model_config env_file].
  change (env_name model_config field) with (lower field).
  rewrite existsb_app, orb_false_iff, <- !env_get_None.
  destruct (env_get model_config (lower field) (os_environ env)); split.
  - discriminate.
  - now intros [H _].
  - now split.
  - now intros [_ H].
Qed.

Lemma env_get_nocase (name : string) (vars1 vars2 : list (string * string)) :
  same_names_nocase vars1 vars2 ->
  env_get model_config name vars1 = env_get model_config name vars2.
Proof.
  induction 1 as [ | [k1 v1] [k2 v2] rest1 rest2 [Hk Hv] _ IH];
    [ reflexivity | ].
  cbn [fst snd] in Hk, Hv. cbn [env_get]. rewrite IH.
  change (env_name model_config k1) with (lower k1).
  change (env_name model_config k2) with (lower k2).
  now rewrite Hk, Hv.
Qed.

Lemma env_get_other (name k v : string) (before after : list (string * string)) :
  String.eqb (lower k) name = false ->
  env_get model_config name (before ++ (k, v) :: after) =
  env_get model_config name (before ++ after).
Proof.
  intros Hk. induction before as [ | [k0 v0] before IH]; cbn [app env_get].
  - change (env_name model_config k) with (lower k). rewrite Hk.
    now destruct (env_get model_config name after).
  - now rewrite IH.
Qed.

(** Loading reads the environment through the five fields only. *)
Lemma Settings_init_ext (env1 env2 : environment) :
  (forall field, In field Settings_fields ->
     field_value model_config env1 field = field_value model_config env2 field) ->
  Settings_init int_of_str env1 = Settings_init int_of_str env2.
Proof.
  intros H. unfold Settings_init. cbn [extra_ok model_config extra negb].
  rewrite !H by (cbn; tauto). reflexivity.
Qed.

Lemma is_field_false (k field : string) :
  is_field model_config k = false -> In field Settings_fields ->
  String.eqb (lower k) (lower field) = false.
Proof.
  unfold is_field. rewrite <- not_true_iff_false, existsb_exists.
  intros Hk Hin. apply not_true_iff_false. intros Heq.
  apply Hk. now exists field.
Qed.

(** C8.  Loading raises, and so the process does not start, when one of
    [llm_api_key], [llm_base_url], [llm_model] is bound neither in the
    process environment nor in the environment file; with the three
    present and [api_timeout] absent it succeeds with a timeout of 60;
    the letter case of names does not matter; a binding whose name is no
    field changes nothing, in the process environment and in the file. *)
Theorem settings_loading :
  (forall (env : environment) (field : string),
     In field ["llm_api_key"; "llm_base_url"; "llm_model"]%string ->
     present field env = false ->
     Settings_init int_of_str env = Raise ValidationError) /\
  (forall env : environment,
     present "llm_api_key" env = true ->
     present "llm_base_url" env = true ->
     present "llm_model" env = true ->
     present "api_timeout" env = false ->
     exists s, Settings_init int_of_str env = Ok s /\ api_timeout s = 60%Z) /\
  (forall env1 env2 : environment,
     same_names_nocase (os_environ env1) (os_environ env2) ->
     same_names_nocase (dotenv env1) (dotenv env2) ->
     Settings_init int_of_str env1 = Settings_init int_of_str env2) /\
  (forall (k v : string) (before after file : list (string * string)),
     is_field model_config k = false ->
     Settings_init int_of_str (mkEnvironment (before ++ (k, v) :: after) file) =
     Settings_init int_of_str (mkEnvironment (before ++ after) file)) /\
  (forall (k v : string) (vars before after : list (string * string)),
     is_field model_config k = false ->
     Settings_init int_of_str (mkEnvironment vars (before ++ (k, v) :: after)) =
     Settings_init int_of_str (mkEnvironment vars (before ++ after))).
Proof.
  split; [ | split; [ | split; [ | split ] ] ].
  - intros env field Hin Habsent.
    assert (Hnone : field_value model_config env field = None).
    { apply field_value_None.
      destruct Hin as [<- | [<- | [<- | []]]]; exact Habsent. }
    unfold Settings_init. cbn [extra_ok model_config extra negb].
    destruct Hin as [<- | [<- | [<- | []]]]; rewrite Hnone;
      repeat match goal with
             | |- context [field_value ?c ?e ?f] =>
                 destruct (field_value c e f)
             end; reflexivity.
  - intros env Hkey Hurl Hmodel Htimeout.
    unfold Settings_init. cbn [extra_ok model_config extra negb].
    destruct (field_value model_config env "llm_api_key") as [key | ] eqn:H1;
      [ | apply field_value_None in H1;
          change (present "llm_api_key" env = false) in H1; congruence ].
    destruct (field_value model_config env "llm_base_url") as [url | ] eqn:H2;
      [ | apply field_value_None in H2;
          change (present "llm_base_url" env = false) in H2; congruence ].
    destruct (field_value model_config env "llm_model") as [model | ] eqn:H3;
      [ | apply field_value_None in H3;
          change (present "llm_model" env = false) in H3; congruence ].
    assert (H4 : field_value model_config env "api_timeout" = None)
      by (apply field_value_None; exact Htimeout).
    rewrite H4. eexists. split; reflexivity.
  - intros env1 env2 Hvars Hfile. apply Settings_init_ext. intros field _.
    unfold field_value. cbn [model_config env_file].
    now rewrite (env_get_nocase _ _ _ Hvars), (env_get_nocase _ _ _ Hfile).
  - intros k v before after file Hk. apply Settings_init_ext. intros field Hin.
    unfold field_value. cbn [os_environ dotenv].
    change (env_name model_config field) with (lower field).
    now rewrite (env_get_other _ k v before after (is_field_false k field Hk Hin)).
  - intros k v vars before after Hk. apply Settings_init_ext. intros field Hin.
    unfold field_value. cbn [os_environ dotenv].
    change (env_name model_config field) with (lower field).
    now rewrite (env_get_other _ k v before after (is_field_false k field Hk Hin)).
Qed.

End LoadingProperties.

(** ** The properties at sample inputs *)

(** C1 at an upstream that answers 200 with an empty completion: the
    empty string comes back as a success. *)
Lemma generate_returns_content_verbatim_witness :
  result (generate (answers 200 (Some (sample_body "")))
            (scoped_client sample_settings) "Hello") = Ok (VStr "").
Proof.
  apply (generate_returns_content_verbatim
           (answers 200 (Some (sample_body "")))
           (scoped_client sample_settings)
           (mkAsyncClient "https://api.example.com/openai"
              [("Authorization", "Bearer sk-test");
               ("Content-Type", "application/json")] 60 false)
           "Hello" "" (mkResponse 200 (Some (sample_body ""))) (sample_body ""));
    [ discriminate | reflexivity .. ].
Defined.

(** C2 at an upstream that answers 503. *)
Lemma non_2xx_status_surfaces_as_502_witness :
  result (generate (answers 503 None) (scoped_client sample_settings) "Hello") =
    Raise (RuntimeError "LLM API error: 503") /\
  503%N = status_code (mkResponse 503 None) /\
  result (generate_response (answers 503 None) sample_settings
            (mkPromptRequest "Hello")) =
    Raise (HTTPException 502 "LLM API error: 503").
Proof.
  pose proof (non_2xx_status_surfaces_as_502
                (answers 503 None) sample_settings
                (scoped_client sample_settings)
                (mkAsyncClient "https://api.example.com/openai"
                   [("Authorization", "Bearer sk-test");
                    ("Content-Type", "application/json")] 60 false)
                "Hello" (mkResponse 503 None)
                eq_refl eq_refl eq_refl eq_refl)
    as (Hgen & _ & Hcode & _ & Hroute).
  split; [ exact Hgen | ].
  split; [ exact (Hcode 503%N eq_refl) | exact (Hroute eq_refl) ].
Defined.

(** C4, the claim as stated, at the precondition error: [generate] on a
    client that was never entered raises it, it is none of the unified
    upstream errors, and the [except] clauses of the route answer 502
    with its message, not 500 with the fixed detail. *)
Lemma precondition_error_surfaces_as_502 :
  result (generate (answers 200 None) (__init__ sample_settings) "Hello") =
    Raise (RuntimeError precondition_msg) /\
  ~ upstream_error (RuntimeError precondition_msg) /\
  surfaced (RuntimeError precondition_msg) =
    Raise (HTTPException 502 "LLMClient must be used as an async context manager") /\
  surfaced (RuntimeError precondition_msg) <>
    Raise (HTTPException 500 "Internal server error").
Proof.
  split; [ reflexivity | ]. split; [ | split; [ reflexivity | discriminate ] ].
  intros H. inversion H.
Qed.

(** C4 as the code has it, at a malformed-response error. *)
Lemma handler_maps_RuntimeError_to_502_witness :
  exists msg,
    RuntimeError "Invalid response format from LLM API" = RuntimeError msg /\
    surfaced (RuntimeError "Invalid response format from LLM API") =
      Raise (HTTPException 502 msg).
Proof.
  exact (proj1 (proj2 (handler_maps_RuntimeError_to_502
                         (answers 200 None) sample_settings))
           (RuntimeError "Invalid response format from LLM API")
           upstream_malformed).
Defined.

(** C5 at a freshly constructed client. *)
Lemma generate_unopened_fails_fast_witness :
  generate (answers 200 (Some (sample_body "Hi there")))
    (__init__ sample_settings) "Hello" =
  (Raise (RuntimeError "LLMClient must be used as an async context manager"), []).
Proof.
  exact (generate_unopened_fails_fast
           (answers 200 (Some (sample_body "Hi there")))
           (__init__ sample_settings) "Hello" eq_refl).
Defined.

(** C6 at the client the route opens. *)
Lemma generate_single_post_witness :
  log (generate (answers 500 None) (scoped_client sample_settings) "Hello") =
    [EvSend (handler_request sample_settings "Hello")] /\
  count is_send
    (log (generate (answers 500 None) (scoped_client sample_settings) "Hello")) = 1.
Proof.
  exact (generate_single_post (answers 500 None) (scoped_client sample_settings)
           (mkAsyncClient "https://api.example.com/openai"
              [("Authorization", "Bearer sk-test");
               ("Content-Type", "application/json")] 60 false)
           "Hello" eq_refl eq_refl).
Defined.

(** C7: closing the route's client twice, and closing a fresh one. *)
Lemma connection_released_exactly_once_witness :
  __aexit__ (set_client (__init__ sample_settings)
               (Some (mkAsyncClient "https://api.example.com/openai" [] 60 true))) =
    (Ok (set_client (__init__ sample_settings)
           (Some (mkAsyncClient "https://api.example.com/openai" [] 60 true))), []) /\
  __aexit__ (__init__ sample_settings) = (Ok (__init__ sample_settings), []).
Proof.
  pose proof (connection_released_exactly_once (answers 200 None) sample_settings)
    as (_ & _ & Hagain & Hfresh).
  split.
  - exact (Hagain
             (set_client (__init__ sample_settings)
                (Some (mkAsyncClient "https://api.example.com/openai" [] 60 false)))
             _ [EvRelease] eq_refl).
  - exact (Hfresh (__init__ sample_settings) eq_refl).
Defined.

(** C8 at an environment that lacks the key, at one that has the three
    required names in mixed case and no timeout, at the same names in
    upper case, and at the same environment without its two unknown
    names. *)
Lemma settings_loading_witness :
  Settings_init sample_int_of_str
    (mkEnvironment [("PATH", "/usr/bin"); ("LLM_MODEL", "m")]
                   [("llm_base_url", "https://api.example.com")]) =
    Raise ValidationError /\
  (exists s, Settings_init sample_int_of_str sample_environment = Ok s /\
             api_timeout s = 60%Z) /\
  Settings_init sample_int_of_str sample_environment =
  Settings_init sample_int_of_str
    (mkEnvironment
       [("path", "/usr/bin"); ("llm_api_key", "sk-test");
        ("LLM_BASE_URL", "https://api.example.com")]
       [("LLM_MODEL", "sample-model"); ("editor", "vi")]) /\
  Settings_init sample_int_of_str sample_environment =
  Settings_init sample_int_of_str
    (mkEnvironment
       [("LLM_API_KEY", "sk-test"); ("Llm_Base_Url", "https://api.example.com")]
       [("llm_model", "sample-model"); ("EDITOR", "vi")]) /\
  Settings_init sample_int_of_str sample_environment =
  Settings_init sample_int_of_str
    (mkEnvironment
       [("PATH", "/usr/bin"); ("LLM_API_KEY", "sk-test");
        ("Llm_Base_Url", "https://api.example.com")]
       [("llm_model", "sample-model")]).
Proof.
  pose proof (settings_loading sample_int_of_str)
    as (Hmissing & Hdefault & Hcase & Hvar & Hfile).
  split; [ | split; [ | split; [ | split ] ] ].
  3: { apply Hcase; repeat constructor. }
  3: { exact (Hvar "PATH" "/usr/bin" []
                [("LLM_API_KEY", "sk-test");
                 ("Llm_Base_Url", "https://api.example.com")]
                [("llm_model", "sample-model"); ("EDITOR", "vi")] eq_refl). }
  3: { exact (Hfile "EDITOR" "vi"
                [("PATH", "/usr/bin"); ("LLM_API_KEY", "sk-test");
                 ("Llm_Base_Url", "https://api.example.com")]
                [("llm_model", "sample-model")] [] eq_refl). }
  - exact (Hmissing
             (mkEnvironment [("PATH", "/usr/bin"); ("LLM_MODEL", "m")]
                            [("llm_base_url", "https://api.example.com")])
             "llm_api_key" (or_introl eq_refl) eq_refl).
  - exact (Hdefault sample_environment eq_refl eq_refl eq_refl eq_refl).
Defined.

(** C9 at the bodies [{"prompt": ""}] and [{"prompt": "Hello"}]. *)
Lemma empty_prompt_rejected_before_client_witness :
  post_generate (answers 200 (Some (sample_body "Hi there"))) sample_settings
    (VDict [("prompt", VStr "")]) = (Ok Unprocessable, []) /\
  1 <= String.length (prompt (mkPromptRequest "Hello")) /\
  exists request,
    PromptRequest_validate (VDict [("prompt", VStr "Hello")]) = Ok request /\
    1 <= String.length (prompt request).
Proof.
  pose proof (empty_prompt_rejected_before_client
                (answers 200 (Some (sample_body "Hi there"))) sample_settings)
    as (Hempty & Hlen & Hreach).
  split; [ exact (Hempty [("prompt", VStr "")] eq_refl) | ].
  split.
  - exact (Hlen (VDict [("prompt", VStr "Hello")]) (mkPromptRequest "Hello") eq_refl).
  - apply (Hreach (VDict [("prompt", VStr "Hello")])). discriminate.
Defined.

(** C10 at the client of the samples, entered and exited. *)
Lemma generate_after_close_passes_guard_witness :
  result (generate (answers 200 (Some (sample_body "Hi there")))
            (set_client (__init__ sample_settings)
               (Some (mkAsyncClient "https://api.example.com/openai"
                        [("Authorization", "Bearer sk-test");
                         ("Content-Type", "application/json")] 60 true)))
            "Hello") <>
  Raise (RuntimeError precondition_msg).
Proof.
  exact (proj1 (proj2 (generate_after_close_passes_guard
                         (answers 200 (Some (sample_body "Hi there")))
                         (__init__ sample_settings) _ _ _ _ "Hello"
                         eq_refl eq_refl))).
Defined.

(** The end-to-end scenario: [{"prompt": "Hello"}] against an upstream that
    answers with the completion ["Hi there"]. *)
Example post_generate_hello :
  post_generate (answers 200 (Some (sample_body "Hi there"))) sample_settings
    (VDict [("prompt", VStr "Hello")]) =
  (Ok (Reply 200 (VDict [("response", VStr "Hi there")])),
   [EvAcquire; EvSend (handler_request sample_settings "Hello"); EvRelease]).
Proof. reflexivity. Qed.

(** A completion whose content is [null] is handed back as [None]; the
    response model then rejects it and the route answers 500. *)
Example null_content_is_returned :
  let upstream :=
    answers 200
      (Some (VDict [("choices",
                     VList [VDict [("message",
                                    VDict [("content", VNone)])]])])) in
  result (generate upstream (scoped_client sample_settings) "Hello") = Ok VNone /\
  result (post_generate upstream sample_settings (VDict [("prompt", VStr "Hello")])) =
    Ok (Reply 500 (VDict [("detail", VStr "Internal server error")])).
Proof. split; reflexivity. Qed.

(** A body that is not JSON raises [JSONDecodeError] out of [generate]. *)
Example not_json_escapes :
  result (generate (answers 200 None) (scoped_client sample_settings) "Hello") =
    Raise JSONDecodeError.
Proof. reflexivity. Qed.

(** A timeout is reported through the route as 502 with the transport's
    message. *)
Example timeout_surfaces_as_502 :
  result (post_generate (fun _ => Fails (RequestError "timed out")) sample_settings
            (VDict [("prompt", VStr "Hello")])) =
    Ok (Reply 502 (VDict [("detail", VStr "Request failed: timed out")])).
Proof. reflexivity. Qed.

(** ** Further properties of the client and of the route *)

#[local] Set Default Proof Using "Type".

Section FurtherProperties.

Variable upstream : Request -> post_outcome.
Variable settings : Settings.

(** On an open client a call is its result together with the one request
    it sent. *)
Lemma generate_open_eq (self : LLMClient) (c : AsyncClient) (P : string) :
  _client self = Some c -> is_closed c = false ->
  generate upstream self P =
  (result (generate upstream self P), [EvSend (chat_request self c P)]).
Proof.
  intros Hc Hopen. rewrite <- (generate_open_log upstream self c P Hc Hopen).
  apply io_eta.
Qed.

(** The content of the first choice is handed back as it is, of whatever
    type. *)
Lemma generate_content_value
    (self : LLMClient) (c : AsyncClient) (P : string)
    (response : Response) (data v : value) :
  _client self = Some c -> is_closed c = false ->
  upstream (chat_request self c P) = Responds response ->
  is_success response = true ->
  body response = Some data ->
  choices0_message_content data = Some v ->
  result (generate upstream self P) = Ok v.
Proof.
  intros Hc Hopen Hup H2xx Hbody Hshape.
  destruct (getitem_chain data v Hshape)
    as (choices & choice & message & H1 & H2 & H3 & H4).
  unfold generate. rewrite Hc, (post_open upstream c _ _ Hopen). cbn zeta.
  fold (chat_request self c P). rewrite Hup.
  io_step. unfold raise_for_status, Response_json. rewrite H2xx, Hbody.
  io_step. rewrite H1. io_step. rewrite H2. io_step. rewrite H3. io_step.
  now rewrite H4.
Qed.

(** An exception that no clause of [generate] names leaves it as it is. *)
Lemma generate_unhandled
    (self : LLMClient) (c : AsyncClient) (P : string) (e : exn) :
  _client self = Some c -> is_closed c = false ->
  upstream (chat_request self c P) = Fails e ->
  generate_handlers e = None ->
  result (generate upstream self P) = Raise e.
Proof.
  intros Hc Hopen Hup Hnone.
  unfold generate. rewrite Hc, (post_open upstream c _ _ Hopen). cbn zeta.
  fold (chat_request self c P). rewrite Hup. io_step. now rewrite Hnone.
Qed.


Lemma validate_nonempty (entries : list (string * value)) (s : string) :
  dict_get "prompt" entries = Some (VStr s) -> s <> ""%string ->
  PromptRequest_validate (VDict entries) = Ok (mkPromptRequest s).
Proof.
  intros Hprompt Hs. unfold PromptRequest_validate. rewrite Hprompt.
  destruct s as [ | a rest]; [ now contradiction Hs | reflexivity ].
Qed.

(** X1.  When the transport fails on an open client ([httpx.RequestError]:
    connection refused, timeout, ...), [generate] raises the unified error
    ["Request failed: <message of the transport>"] after the one request
    it sent, and the route, for the client it opened, answers 502 with
    that text. *)
Theorem transport_failure_surfaces_as_502
    (self : LLMClient) (c : AsyncClient) (P msg : string) :
  _client self = Some c -> is_closed c = false ->
  upstream (chat_request self c P) = Fails (RequestError msg) ->
  generate upstream self P =
    (Raise (RuntimeError ("Request failed: " ++ msg)%string),
     [EvSend (chat_request self c P)]) /\
  upstream_error (RuntimeError ("Request failed: " ++ msg)%string) /\
  (self = scoped_client settings ->
   result (generate_response upstream settings (mkPromptRequest P)) =
   Raise (HTTPException 502 ("Request failed: " ++ msg)%string)).
Proof.
  intros Hc Hopen Hup.
  pose proof (generate_transport_error upstream self c P msg Hc Hopen Hup) as Hgen.
  split; [ | split; [ constructor | ] ].
  - now rewrite (generate_open_eq self c P Hc Hopen), Hgen.
  - intros ->. rewrite generate_response_eq. cbn [result fst prompt].
    now rewrite Hgen.
Qed.

(** X2.  A 2xx body that is an object without ["choices"], or whose
    [choices] is the empty list, or whose first choice is an object
    without ["message"], or whose message is an object without
    ["content"], makes [generate] raise the unified error ["Invalid
    response format from LLM API"]; the route answers 502 with that
    text. *)
Theorem missing_key_surfaces_as_502
    (self : LLMClient) (c : AsyncClient) (P : string)
    (response : Response) (data : value) :
  _client self = Some c -> is_closed c = false ->
  upstream (chat_request self c P) = Responds response ->
  is_success response = true ->
  body response = Some data ->
  lacks_content data ->
  generate upstream self P =
    (Raise (RuntimeError "Invalid response format from LLM API"),
     [EvSend (chat_request self c P)]) /\
  (self = scoped_client settings ->
   result (generate_response upstream settings (mkPromptRequest P)) =
   Raise (HTTPException 502 "Invalid response format from LLM API")).
Proof.
  intros Hc Hopen Hup H2xx Hbody Hshape.
  pose proof (generate_lacks_content upstream self c P response data
                Hc Hopen Hup H2xx Hbody Hshape) as Hgen.
  split.
  - now rewrite (generate_open_eq self c P Hc Hopen), Hgen.
  - intros ->. rewrite generate_response_eq. cbn [result fst prompt].
    now rewrite Hgen.
Qed.

(** X3.  [generate] hands back [choices[0].message.content] whatever its
    type, and looks at nothing else of the body (further choices, other
    keys).  The route answers with the text when it is a string and with
    500 and the fixed detail when it is anything else. *)
Theorem content_is_returned_whatever_its_type
    (self : LLMClient) (c : AsyncClient) (P : string)
    (response : Response) (data v : value) :
  _client self = Some c -> is_closed c = false ->
  upstream (chat_request self c P) = Responds response ->
  is_success response = true ->
  body response = Some data ->
  choices0_message_content data = Some v ->
  generate upstream self P = (Ok v, [EvSend (chat_request self c P)]) /\
  (self = scoped_client settings ->
   result (generate_response upstream settings (mkPromptRequest P)) =
   match v with
   | VStr text => Ok (mkPromptResponse text)
   | _ => Raise (HTTPException 500 "Internal server error")
   end).
Proof.
  intros Hc Hopen Hup H2xx Hbody Hshape.
  pose proof (generate_content_value self c P response data v
                Hc Hopen Hup H2xx Hbody Hshape) as Hgen.
  split.
  - now rewrite (generate_open_eq self c P Hc Hopen), Hgen.
  - intros ->. rewrite generate_response_eq. cbn [result fst prompt].
    rewrite Hgen. now destruct v.
Qed.

(** X4.  Whatever the state of the client and whatever the upstream does,
    [generate] never raises [HTTPStatusError], [RequestError], [KeyError]
    or [IndexError]: these always leave it as a [RuntimeError]. *)
Theorem generate_never_raises_caught_classes (self : LLMClient) (P : string) :
  match result (generate upstream self P) with
  | Raise (HTTPStatusError _) | Raise (RequestError _)
  | Raise (KeyError _) | Raise IndexError => False
  | _ => True
  end.
Proof.
  unfold generate. destruct (_client self) as [c | ]; [ | exact I ].
  rewrite result_try_except.
  match goal with
  | |- context [result ?m] => destruct (result m) as [v | e]
  end; [ exact I | ].
  destruct e; cbn; exact I.
Qed.

(** X5.  An exception of the transport that is of none of the classes
    [generate] catches passes through [generate] unchanged; the route then
    answers 502 with the exception's own message when it is a
    [RuntimeError] and 500 with the fixed detail otherwise. *)
Theorem foreign_exception_passes_through
    (self : LLMClient) (c : AsyncClient) (P : string) (e : exn) :
  _client self = Some c -> is_closed c = false ->
  upstream (chat_request self c P) = Fails e ->
  generate_handlers e = None ->
  generate upstream self P = (Raise e, [EvSend (chat_request self c P)]) /\
  (self = scoped_client settings ->
   result (generate_response upstream settings (mkPromptRequest P)) =
   match e with
   | RuntimeError msg => Raise (HTTPException 502 msg)
   | _ => Raise (HTTPException 500 "Internal server error")
   end).
Proof.
  intros Hc Hopen Hup Hnone.
  pose proof (generate_unhandled self c P e Hc Hopen Hup Hnone) as Hgen.
  split.
  - now rewrite (generate_open_eq self c P Hc Hopen), Hgen.
  - intros ->. rewrite generate_response_eq. cbn [result fst prompt].
    rewrite Hgen. now destruct e.
Qed.


(** X7.  An inbound body whose ["prompt"] is a non-empty string, whatever
    else the body holds, leads to exactly one outbound request: a POST to
    [/v1/chat/completions] on the configured base URL, with the bearer
    header built from the configured key, the configured model, and the
    prompt as it came in (nothing is stripped) in the one user message.
    The connection is acquired before it and released after it, whatever
    the upstream does. *)
Theorem accepted_request_sends_prompt_verbatim
    (entries : list (string * value)) (s : string) :
  dict_get "prompt" entries = Some (VStr s) -> s <> ""%string ->
  log (post_generate upstream settings (VDict entries)) =
    [EvAcquire;
     EvSend (mkRequest "POST" (llm_base_url settings) "/v1/chat/completions"
               [("Authorization", ("Bearer " ++ llm_api_key settings)%string);
                ("Content-Type", "application/json")]
               (api_timeout settings)
               (VDict [("model", VStr (llm_model settings));
                       ("messages",
                        VList [VDict [("role", VStr "user");
                                      ("content", VStr s)]])]));
     EvRelease].
Proof.
  intros Hprompt Hs. unfold post_generate.
  rewrite (validate_nonempty entries s Hprompt Hs).
  rewrite log_try_except, result_bind, log_bind, generate_response_log.
  cbn [prompt].
  destruct (result (generate_response upstream settings (mkPromptRequest s)))
    as [r | e]; cbn [result log ret fst snd app]; [ reflexivity | ].
  destruct e; reflexivity.
Qed.

(** X8.  End to end: for an accepted prompt, when the upstream answers 2xx
    with a body whose [choices[0].message.content] is the text [R], the
    endpoint answers 200 with [{"response": R}]. *)
Theorem successful_completion_answers_200
    (entries : list (string * value)) (s R : string)
    (response : Response) (data : value) :
  dict_get "prompt" entries = Some (VStr s) -> s <> ""%string ->
  upstream (handler_request settings s) = Responds response ->
  is_success response = true ->
  body response = Some data ->
  choices0_message_content data = Some (VStr R) ->
  result (post_generate upstream settings (VDict entries)) =
  Ok (Reply 200 (VDict [("response", VStr R)])).
Proof.
  intros Hprompt Hs Hup H2xx Hbody Hshape. unfold post_generate.
  rewrite (validate_nonempty entries s Hprompt Hs).
  rewrite result_try_except, result_bind, generate_response_eq.
  cbn [result fst prompt].
  rewrite (generate_content_value (scoped_client settings) _ s response data
             (VStr R) eq_refl eq_refl Hup H2xx Hbody Hshape).
  reflexivity.
Qed.



(** X11.  [__aenter__] does not look at the handle the client already holds:
    entering a client twice acquires two connections, and the exits that
    follow, however many, release one. *)
Theorem reentering_acquires_a_second_connection (self : LLMClient) :
  let twice :=
    (c1 <- __aenter__ self ;;
     c2 <- __aenter__ c1 ;;
     c3 <- __aexit__ c2 ;;
     __aexit__ c3)%io in
  log twice = [EvAcquire; EvAcquire; EvRelease] /\
  count is_acquire (log twice) = 2 /\
  count is_release (log twice) = 1.
Proof. cbn zeta. split; [ | split ]; reflexivity. Qed.

(** X12.  A client that was entered and exited can be entered again:
    that gives back the very client the first entering gave, with a
    fresh open handle, so [generate] sends its request as before. *)
Theorem reentering_restores_closed_client
    (fresh opened closed : LLMClient) (t1 t2 : trace) (P : string) :
  __aenter__ fresh = (Ok opened, t1) ->
  __aexit__ opened = (Ok closed, t2) ->
  __aenter__ closed = (Ok opened, [EvAcquire]) /\
  log (generate upstream closed P) = [] /\
  exists c, _client opened = Some c /\
            log (generate upstream opened P) = [EvSend (chat_request opened c P)].
Proof.
  intros Henter Hexit.
  unfold __aenter__, AsyncClient_new in Henter. cbn in Henter.
  injection Henter as <- _.
  unfold __aexit__, aclose in Hexit. cbn in Hexit. injection Hexit as <- _.
  split; [ reflexivity | ]. split; [ reflexivity | ].
  eexists. split; [ reflexivity | ].
  now apply generate_open_log.
Qed.

(** X13.  [llm_provider] is not used in API calls: two settings that differ
    in it only give the same run of the route, reply and log. *)
Theorem llm_provider_is_not_used
    (key url model provider1 provider2 : string) (seconds : Z)
    (request : PromptRequest) :
  generate_response upstream (mkSettings key url model seconds provider1) request =
  generate_response upstream (mkSettings key url model seconds provider2) request.
Proof. reflexivity. Qed.

End FurtherProperties.

(** ** Further properties of the settings *)

Lemma env_get_bound (name : string) (vars : list (string * string)) :
  existsb (fun kv => String.eqb (lower (fst kv)) name) vars = true ->
  exists v, env_get model_config name vars = Some v.
Proof.
  intros Hbound.
  destruct (env_get model_config name vars) as [v | ] eqn:Hget; [ now exists v | ].
  apply (proj1 (env_get_None (fun _ => None) name vars)) in Hget. congruence.
Qed.


Section FurtherLoadingProperties.

Variable int_of_str : string -> option Z.

(** X14.  The process environment has priority over the file: for a name
    that the process environment binds (in any letter case), a binding of
    that name in the file changes nothing. *)
Theorem process_environment_overrides_file
    (k v : string) (vars before after : list (string * string)) :
  existsb (fun kv => String.eqb (lower (fst kv)) (lower k)) vars = true ->
  Settings_init int_of_str (mkEnvironment vars (before ++ (k, v) :: after)) =
  Settings_init int_of_str (mkEnvironment vars (before ++ after)).
Proof.
  intros Hbound. apply Settings_init_ext. intros field _.
  unfold field_value. cbn [os_environ dotenv model_config env_file].
  change (env_name model_config field) with (lower field).
  destruct (String.eqb (lower k) (lower field)) eqn:Hk.
  - apply String.eqb_eq in Hk. rewrite <- Hk.
    destruct (env_get_bound (lower k) vars Hbound) as (v0 & ->). reflexivity.
  - now rewrite (env_get_other _ k v before after Hk).
Qed.

(** X15.  With the three required names bound, in any letter case, in the
    process environment or in the file, and nothing else, loading
    succeeds with the three values as they are written, a timeout of 60
    and the provider ["generic"]. *)
Theorem required_values_load_verbatim
    (n1 n2 n3 key url model : string) :
  lower n1 = "llm_api_key"%string ->
  lower n2 = "llm_base_url"%string ->
  lower n3 = "llm_model"%string ->
  Settings_init int_of_str
    (mkEnvironment [(n1, key); (n2, url); (n3, model)] []) =
    Ok (mkSettings key url model 60 "generic") /\
  Settings_init int_of_str
    (mkEnvironment [] [(n1, key); (n2, url); (n3, model)]) =
    Ok (mkSettings key url model 60 "generic").
Proof.
  intros H1 H2 H3.
  unfold Settings_init, field_value.
  cbn [extra_ok model_config extra negb env_file os_environ dotenv env_get].
  change (env_name model_config n1) with (lower n1).
  change (env_name model_config n2) with (lower n2).
  change (env_name model_config n3) with (lower n3).
  rewrite H1, H2, H3. split; reflexivity.
Qed.


End FurtherLoadingProperties.

(** ** The further properties at sample inputs *)

(** X1 at an upstream that times out. *)
Lemma transport_failure_surfaces_as_502_witness :
  result (generate_response (fun _ => Fails (RequestError "timed out"))
            sample_settings (mkPromptRequest "Hello")) =
  Raise (HTTPException 502 "Request failed: timed out").
Proof.
  exact (proj2 (proj2 (transport_failure_surfaces_as_502
                         (fun _ => Fails (RequestError "timed out"))
                         sample_settings (scoped_client sample_settings)
                         (mkAsyncClient "https://api.example.com/openai"
                            [("Authorization", "Bearer sk-test");
                             ("Content-Type", "application/json")] 60 false)
                         "Hello" "timed out" eq_refl eq_refl eq_refl))
           eq_refl).
Defined.

(** X2 at an upstream that answers 200 with [{"choices": []}]. *)
Lemma missing_key_surfaces_as_502_witness :
  result (generate_response
            (answers 200 (Some (VDict [("choices", VList [])])))
            sample_settings (mkPromptRequest "Hello")) =
  Raise (HTTPException 502 "Invalid response format from LLM API").
Proof.
  exact (proj2 (missing_key_surfaces_as_502
                  (answers 200 (Some (VDict [("choices", VList [])])))
                  sample_settings (scoped_client sample_settings)
                  (mkAsyncClient "https://api.example.com/openai"
                     [("Authorization", "Bearer sk-test");
                      ("Content-Type", "application/json")] 60 false)
                  "Hello" (mkResponse 200 (Some (VDict [("choices", VList [])])))
                  (VDict [("choices", VList [])])
                  eq_refl eq_refl eq_refl eq_refl eq_refl
                  (empty_choices [("choices", VList [])] eq_refl))
           eq_refl).
Defined.

(** X3 at a completion whose content is the number 42. *)
Lemma content_is_returned_whatever_its_type_witness :
  let data :=
    VDict [("choices",
            VList [VDict [("message", VDict [("content", VInt 42)])];
                   VDict [("message", VDict [("content", VStr "second")])]])] in
  result (generate (answers 200 (Some data))
            (scoped_client sample_settings) "Hello") = Ok (VInt 42) /\
  result (generate_response (answers 200 (Some data)) sample_settings
            (mkPromptRequest "Hello")) =
  Raise (HTTPException 500 "Internal server error").
Proof.
  cbn zeta.
  pose proof (content_is_returned_whatever_its_type
                (answers 200
                   (Some (VDict [("choices",
                     VList [VDict [("message", VDict [("content", VInt 42)])];
                            VDict [("message",
                                    VDict [("content", VStr "second")])]])])))
                sample_settings (scoped_client sample_settings)
                (mkAsyncClient "https://api.example.com/openai"
                   [("Authorization", "Bearer sk-test");
                    ("Content-Type", "application/json")] 60 false)
                "Hello" _ _ (VInt 42)
                eq_refl eq_refl eq_refl eq_refl eq_refl eq_refl)
    as (Hgen & Hroute).
  split; [ exact (f_equal fst Hgen) | exact (Hroute eq_refl) ].
Defined.

(** X5 at a [RuntimeError] of the event loop. *)
Lemma foreign_exception_passes_through_witness :
  result (generate_response
            (fun _ => Fails (RuntimeError "Event loop is closed"))
            sample_settings (mkPromptRequest "Hello")) =
  Raise (HTTPException 502 "Event loop is closed").
Proof.
  exact (proj2 (foreign_exception_passes_through
                  (fun _ => Fails (RuntimeError "Event loop is closed"))
                  sample_settings (scoped_client sample_settings)
                  (mkAsyncClient "https://api.example.com/openai"
                     [("Authorization", "Bearer sk-test");
                      ("Content-Type", "application/json")] 60 false)
                  "Hello" (RuntimeError "Event loop is closed")
                  eq_refl eq_refl eq_refl eq_refl)
           eq_refl).
Defined.

(** X7 at a body with a padded prompt and a further key. *)
Lemma accepted_request_sends_prompt_verbatim_witness :
  log (post_generate (answers 500 None) sample_settings
         (VDict [("user", VStr "ann"); ("prompt", VStr "  Hello  ")])) =
  [EvAcquire; EvSend (handler_request sample_settings "  Hello  "); EvRelease].
Proof.
  apply (accepted_request_sends_prompt_verbatim (answers 500 None) sample_settings
           [("user", VStr "ann"); ("prompt", VStr "  Hello  ")] "  Hello  ");
    [ reflexivity | discriminate ].
Defined.

(** X8 at the scenario of the samples. *)
Lemma successful_completion_answers_200_witness :
  result (post_generate (answers 200 (Some (sample_body "Hi there")))
            sample_settings (VDict [("prompt", VStr "Hello")])) =
  Ok (Reply 200 (VDict [("response", VStr "Hi there")])).
Proof.
  apply (successful_completion_answers_200
           (answers 200 (Some (sample_body "Hi there"))) sample_settings
           [("prompt", VStr "Hello")] "Hello" "Hi there"
           (mkResponse 200 (Some (sample_body "Hi there")))
           (sample_body "Hi there"));
    [ reflexivity | discriminate | reflexivity .. ].
Defined.


(** X12 at the client of the samples. *)
Lemma reentering_restores_closed_client_witness :
  __aenter__
    (set_client (__init__ sample_settings)
       (Some (mkAsyncClient "https://api.example.com/openai"
                [("Authorization", "Bearer sk-test");
                 ("Content-Type", "application/json")] 60 true))) =
  (Ok (scoped_client sample_settings), [EvAcquire]).
Proof.
  exact (proj1 (reentering_restores_closed_client (answers 200 None)
                  (__init__ sample_settings) (scoped_client sample_settings)
                  _ [EvAcquire] [EvRelease] "Hello" eq_refl eq_refl)).
Defined.

(** X14 at a key bound in both places. *)
Lemma process_environment_overrides_file_witness :
  Settings_init sample_int_of_str
    (mkEnvironment (os_environ sample_environment)
       [("llm_model", "sample-model"); ("llm_api_key", "sk-file")]) =
  Settings_init sample_int_of_str
    (mkEnvironment (os_environ sample_environment) [("llm_model", "sample-model")]).
Proof.
  exact (process_environment_overrides_file sample_int_of_str
           "llm_api_key" "sk-file" (os_environ sample_environment)
           [("llm_model", "sample-model")] [] eq_refl).
Defined.

(** X15 at upper-case names. *)
Lemma required_values_load_verbatim_witness :
  Settings_init sample_int_of_str
    (mkEnvironment [("LLM_API_KEY", " sk-test "); ("LLM_BASE_URL", "https://x/");
                    ("LLM_MODEL", "m")] []) =
  Ok (mkSettings " sk-test " "https://x/" "m" 60 "generic").
Proof.
  exact (proj1 (required_values_load_verbatim sample_int_of_str
                  "LLM_API_KEY" "LLM_BASE_URL" "LLM_MODEL"
                  " sk-test " "https://x/" "m" eq_refl eq_refl eq_refl)).
Defined.

